(** * The credential-commit probe of the exec sensor

    A shallow embedding of [tg_kp_bprm_committing_creds]
    (bpf/process/bpf_execve_bprm_commit_creds.c), the kprobe that runs on
    [security_bprm_committing_creds], and the properties of its
    classification, of the record it builds and of its write to the
    joined-info map. *)

From Stdlib Require Import ZArith List Lia Bool.
From stdpp Require Import base gmap list strings.

Local Open Scope Z_scope.

(** ** Kernel objects read by the probe (vmlinux.h)

    A C pointer is an [option]: [None] is the null pointer.  Integers are
    [Z]; the program only compares them, stores them and ors constants into
    them, so no wrap-around can occur.  A [char *] points at the bytes that
    follow it in memory. *)

Module cred.
(** [struct cred]; each field stands for the [.val] of a [kuid_t] or
    [kgid_t] (32 bits). *)
Record t := mk { uid : Z; gid : Z; euid : Z; egid : Z }.
End cred.

Module file_system_type.
Record t := mk { name : option (list Z) }.
End file_system_type.

Module super_block.
Record t := mk { s_dev : Z; s_type : option file_system_type.t }.
End super_block.

Module inode.
Record t := mk { i_ino : Z; __i_nlink : Z; i_sb : option super_block.t }.
End inode.

Module file.
Record t := mk { f_inode : option inode.t }.
End file.

Module linux_binprm.
Record t := mk { per_clear : Z; cred : option cred.t; file : option file.t }.
End linux_binprm.

Module task_struct.
Record t := mk { cred : option cred.t }.
End task_struct.

(** [BPF_CORE_READ(p, f)]: a probe read of field [f] through pointer [p].
    A read through the null pointer fails and leaves the zero-initialised
    result: [dflt] is [0] for an integer field and [None] for a pointer. *)
Definition BPF_CORE_READ {A B : Type} (dflt : B) (p : option A) (f : A -> B) : B :=
  match p with
  | Some x => f x
  | None => dflt
  end.

(** ** The record built by the probe (process.h)

    Modelled from the spec: the declarations of [struct msg_execve_info],
    of its members and of [struct execve_heap] are in process.h, which is
    not among the sources.  The members are the ones the program names
    ([secureexec], [file.inode.i_ino], [file.inode.i_nlink],
    [file.mount.s_dev], [file.mount.type], [isset]); the type name is a
    fixed array of 7 bytes, the size the program passes to
    [probe_read_str]. *)

Record msg_inode := mk_msg_inode { i_nlink : Z; i_ino : Z }.

Record msg_mount := mk_msg_mount { s_dev : Z; type : list Z }.

Record msg_file := mk_msg_file { inode : msg_inode; mount : msg_mount }.

Record msg_execve_info := mk_msg_execve_info {
  secureexec : Z;
  file : msg_file;
  isset : Z
}.

(** The scratch buffer: the record under construction, and the other
    members of the buffer, which this program never touches. *)
Record struct_execve_heap := mk_execve_heap {
  heap_rest : list Z;
  info : msg_execve_info
}.

(** Modelled from the spec: the two bits of the escalation flag set,
    [bitset{SETUID, SETGID}], defined in process.h. *)
Definition EXEC_SETUID : Z := 1.
Definition EXEC_SETGID : Z := 2.

(** Size of [msg_mount.type], in bytes. *)
Definition TYPE_SIZE : nat := 7.

(** [memset(&heap->info, 0, sizeof(struct msg_execve_info))] *)
Definition zero_msg_execve_info : msg_execve_info :=
  {| secureexec := 0;
     file := {| inode := {| i_nlink := 0; i_ino := 0 |};
                mount := {| s_dev := 0; type := replicate TYPE_SIZE 0 |} |};
     isset := 0 |}.

(** Assignments to one member of the record. *)
Definition set_secureexec (v : Z) (i : msg_execve_info) : msg_execve_info :=
  {| secureexec := v; file := file i; isset := isset i |}.

Definition set_isset (v : Z) (i : msg_execve_info) : msg_execve_info :=
  {| secureexec := secureexec i; file := file i; isset := v |}.

Definition set_inode (v : msg_inode) (i : msg_execve_info) : msg_execve_info :=
  {| secureexec := secureexec i;
     file := {| inode := v; mount := mount (file i) |};
     isset := isset i |}.

Definition set_mount (v : msg_mount) (i : msg_execve_info) : msg_execve_info :=
  {| secureexec := secureexec i;
     file := {| inode := inode (file i); mount := v |};
     isset := isset i |}.

Definition set_i_ino (v : Z) (i : msg_execve_info) : msg_execve_info :=
  set_inode {| i_nlink := i_nlink (inode (file i)); i_ino := v |} i.

Definition set_i_nlink (v : Z) (i : msg_execve_info) : msg_execve_info :=
  set_inode {| i_nlink := v; i_ino := i_ino (inode (file i)) |} i.

Definition set_s_dev (v : Z) (i : msg_execve_info) : msg_execve_info :=
  set_mount {| s_dev := v; type := type (mount (file i)) |} i.

Definition set_type (v : list Z) (i : msg_execve_info) : msg_execve_info :=
  set_mount {| s_dev := s_dev (mount (file i)); type := v |} i.

(** ** The string read helper

    Modelled from the spec: [probe_read_str(dst, size, src)] is the kernel's
    string read helper, only declared in api.h, which is not among the
    sources.  It copies the NUL-terminated string at [src] into [dst]: at
    most [size - 1] characters and then a NUL, without padding; it returns
    the number of bytes stored, or, when a byte of the source cannot be
    read, clears [size] bytes of [dst] and returns [-EFAULT].  [src] lists
    the bytes that can be read from the source address onwards. *)

(** The bytes fetched by the copy loop: it stops after a NUL or after
    [count] bytes; [None] when it runs into an unreadable byte. *)
Fixpoint fetch_str (count : nat) (src : list Z) : option (list Z) :=
  match count with
  | O => Some []
  | S c =>
    match src with
    | [] => None
    | b :: rest =>
      if b =? 0 then Some [b] else cons b <$> fetch_str c rest
    end
  end.

(** Storing [bs] at the start of the buffer [dst].  A store longer than the
    buffer runs past its end: the result is longer than [dst]. *)
Definition store_bytes (dst bs : list Z) : list Z := bs ++ drop (length bs) dst.

Definition EFAULT : Z := 14.

Definition probe_read_str (dst : list Z) (size : nat) (src : list Z) : list Z * Z :=
  match size with
  | O => (dst, 0)
  | S _ =>
    match fetch_str size src with
    | Some bs => (store_bytes dst (removelast bs ++ [0]), Z.of_nat (length bs))
    | None => (store_bytes dst (replicate size 0), - EFAULT)
    end
  end.

(** ** The state around one run of the probe

    [current] and [current_pid_tgid] are what [get_current_task()] and
    [get_current_pid_tgid()] return; [execve_heap] is the single slot of
    the scratch map ([None]: the lookup fails); [execve_joined_info_map] is
    the map shared with the exec tracepoint, keyed by thread id.
    [joined_info_sets] is the history of the calls of
    [execve_joined_info_map_set], the most recent first. *)
Record kstate := mk_kstate {
  current : task_struct.t;
  current_pid_tgid : Z;
  execve_heap : option struct_execve_heap;
  execve_joined_info_map : gmap Z msg_execve_info;
  joined_info_sets : list (Z * msg_execve_info)
}.

Definition set_heap_info (i : msg_execve_info) (heap : struct_execve_heap) (st : kstate)
  : kstate :=
  {| current := current st;
     current_pid_tgid := current_pid_tgid st;
     execve_heap := Some {| heap_rest := heap_rest heap; info := i |};
     execve_joined_info_map := execve_joined_info_map st;
     joined_info_sets := joined_info_sets st |}.

(** Modelled from the spec: [execve_joined_info_map_set(tid, info)] is
    defined in process.h, which is not among the sources.  It stores a copy
    of the record under the thread id, over any record already there. *)
Definition execve_joined_info_map_set (tid : Z) (i : msg_execve_info) (st : kstate)
  : kstate :=
  {| current := current st;
     current_pid_tgid := current_pid_tgid st;
     execve_heap := execve_heap st;
     execve_joined_info_map := <[tid := i]> (execve_joined_info_map st);
     joined_info_sets := (tid, i) :: joined_info_sets st |}.

(** ** The program, block by block *)

(** Lines 60-77: the classification.  [sec] is [bprm->per_clear]. *)
Definition classify_creds (bprm : linux_binprm.t) (task : task_struct.t)
    (i : msg_execve_info) : msg_execve_info :=
  let sec := linux_binprm.per_clear bprm in
  if sec =? 0 then i
  else
    let euid := BPF_CORE_READ 0 (linux_binprm.cred bprm) cred.euid in
    let egid := BPF_CORE_READ 0 (linux_binprm.cred bprm) cred.egid in
    let uid := BPF_CORE_READ 0 (task_struct.cred task) cred.uid in
    let gid := BPF_CORE_READ 0 (task_struct.cred task) cred.gid in
    let i := if negb (euid =? uid)
             then set_secureexec (Z.lor (secureexec i) EXEC_SETUID) i else i in
    let i := if negb (egid =? gid)
             then set_secureexec (Z.lor (secureexec i) EXEC_SETGID) i else i in
    i.

(** Lines 82-84: inode number and link count of the file being executed. *)
Definition read_inode (ino : option inode.t) (i : msg_execve_info) : msg_execve_info :=
  let i := set_i_ino (BPF_CORE_READ 0 ino inode.i_ino) i in
  let i := set_i_nlink (BPF_CORE_READ 0 ino inode.__i_nlink) i in
  i.

(** Lines 85-94: device and type name of the file system, when the inode
    has a super block. *)
Definition read_mount (sb : option super_block.t) (i : msg_execve_info) : msg_execve_info :=
  match sb with
  | Some _ =>
    let i := set_s_dev (BPF_CORE_READ 0 sb super_block.s_dev) i in
    let sb_name :=
      BPF_CORE_READ None (BPF_CORE_READ None sb super_block.s_type)
                    file_system_type.name in
    match sb_name with
    | Some str => set_type (fst (probe_read_str (type (mount (file i))) 7 str)) i
    | None => i
    end
  | None => i
  end.

(** Line 97: do we cache the entry? *)
Definition cache_entry (i : msg_execve_info) : bool :=
  negb (secureexec i =? 0)
  || ((i_nlink (inode (file i)) =? 0) && negb (i_ino (inode (file i)) =? 0)).

(** Lines 96-101: the write to the joined-info map. *)
Definition commit_entry (tid : Z) (heap : struct_execve_heap) (i : msg_execve_info)
    (st : kstate) : kstate :=
  if cache_entry i then
    let i := set_isset 1 i in
    execve_joined_info_map_set tid i (set_heap_info i heap st)
  else set_heap_info i heap st.

(** Line 58: the record is cleared, whatever the buffer held. *)
Definition memset_info (heap : struct_execve_heap) : struct_execve_heap :=
  {| heap_rest := heap_rest heap; info := zero_msg_execve_info |}.

(** Lines 60-94 on the record [i] of the scratch buffer. *)
Definition fill_info (bprm : linux_binprm.t) (task : task_struct.t)
    (i : msg_execve_info) : msg_execve_info :=
  let i := classify_creds bprm task i in
  let ino := BPF_CORE_READ None (linux_binprm.file bprm) file.f_inode in
  let i := read_inode ino i in
  let sb := BPF_CORE_READ None ino inode.i_sb in
  read_mount sb i.

Definition tg_kp_bprm_committing_creds (bprm : linux_binprm.t) (st : kstate) : kstate :=
  match execve_heap st with
  | None => st
  | Some heap =>
    let heap := memset_info heap in
    let i := fill_info bprm (current st) (info heap) in
    let tid := current_pid_tgid st in
    commit_entry tid heap i st
  end.

(** ** Vocabulary of the properties *)

(** What the program reads from its argument and from the current task. *)
Definition pending_euid (bprm : linux_binprm.t) : Z :=
  BPF_CORE_READ 0 (linux_binprm.cred bprm) cred.euid.
Definition pending_egid (bprm : linux_binprm.t) : Z :=
  BPF_CORE_READ 0 (linux_binprm.cred bprm) cred.egid.
Definition real_uid (task : task_struct.t) : Z :=
  BPF_CORE_READ 0 (task_struct.cred task) cred.uid.
Definition real_gid (task : task_struct.t) : Z :=
  BPF_CORE_READ 0 (task_struct.cred task) cred.gid.
Definition exec_inode (bprm : linux_binprm.t) : option inode.t :=
  BPF_CORE_READ None (linux_binprm.file bprm) file.f_inode.
Definition exec_ino (bprm : linux_binprm.t) : Z :=
  BPF_CORE_READ 0 (exec_inode bprm) inode.i_ino.
Definition exec_nlink (bprm : linux_binprm.t) : Z :=
  BPF_CORE_READ 0 (exec_inode bprm) inode.__i_nlink.
Definition exec_sb (bprm : linux_binprm.t) : option super_block.t :=
  BPF_CORE_READ None (exec_inode bprm) inode.i_sb.
Definition sb_type_name (sb : option super_block.t) : option (list Z) :=
  BPF_CORE_READ None (BPF_CORE_READ None sb super_block.s_type) file_system_type.name.

(** The escalation flags the program computes: the classifier. *)
Definition classify (bprm : linux_binprm.t) (task : task_struct.t) : Z :=
  secureexec (classify_creds bprm task zero_msg_execve_info).

(** A flag is in a flag set. *)
Definition has_flag (flag flags : Z) : Prop := Z.land flags flag = flag.

(** The record left in the scratch buffer. *)
Definition heap_info (st : kstate) : option msg_execve_info := info <$> execve_heap st.

(** From [st] to [st'] the record [r] was stored under the current thread
    id, and nothing else was. *)
Definition committed (st st' : kstate) (r : msg_execve_info) : Prop :=
  joined_info_sets st' = (current_pid_tgid st, r) :: joined_info_sets st
  /\ execve_joined_info_map st'
     = <[current_pid_tgid st := r]> (execve_joined_info_map st).

(** From [st] to [st'] the joined-info map was not written. *)
Definition not_written (st st' : kstate) : Prop :=
  joined_info_sets st' = joined_info_sets st
  /\ execve_joined_info_map st' = execve_joined_info_map st.

(** The predicate of line 97, as a proposition. *)
Definition cache_worthy (r : msg_execve_info) : Prop :=
  secureexec r <> 0 \/ (i_nlink (inode (file r)) = 0 /\ i_ino (inode (file r)) <> 0).

(** The characters of the C string that starts at [src]: the bytes before
    the first NUL. *)
Fixpoint cstring (src : list Z) : list Z :=
  match src with
  | [] => []
  | b :: rest => if b =? 0 then [] else b :: cstring rest
  end.

(** Every record of the joined-info map has [isset] 1 and passes the test
    of line 97. *)
Definition map_records_set (m : gmap Z msg_execve_info) : Prop :=
  forall (tid : Z) (r : msg_execve_info),
    m !! tid = Some r -> isset r = 1 /\ cache_worthy r.

(** ** Definitions the program is compared with *)

(** The classifier the spec compares with: lines 64-76 without the test of
    line 62, so that the ids are compared whatever [bprm->per_clear] is. *)
Definition classify_creds_always (bprm : linux_binprm.t) (task : task_struct.t)
    (i : msg_execve_info) : msg_execve_info :=
  let euid := BPF_CORE_READ 0 (linux_binprm.cred bprm) cred.euid in
  let egid := BPF_CORE_READ 0 (linux_binprm.cred bprm) cred.egid in
  let uid := BPF_CORE_READ 0 (task_struct.cred task) cred.uid in
  let gid := BPF_CORE_READ 0 (task_struct.cred task) cred.gid in
  let i := if negb (euid =? uid)
           then set_secureexec (Z.lor (secureexec i) EXEC_SETUID) i else i in
  let i := if negb (egid =? gid)
           then set_secureexec (Z.lor (secureexec i) EXEC_SETGID) i else i in
  i.

Definition classify_always_compare (bprm : linux_binprm.t) (task : task_struct.t) : Z :=
  secureexec (classify_creds_always bprm task zero_msg_execve_info).

(** Lines 60-84 only: the record as it would be had lines 85-94, the
    resolution of the super block, not been there. *)
Definition fill_info_without_mount (bprm : linux_binprm.t) (task : task_struct.t)
    (i : msg_execve_info) : msg_execve_info :=
  let i := classify_creds bprm task i in
  let ino := BPF_CORE_READ None (linux_binprm.file bprm) file.f_inode in
  read_inode ino i.

Definition tg_kp_without_mount (bprm : linux_binprm.t) (st : kstate) : kstate :=
  match execve_heap st with
  | None => st
  | Some heap =>
    let heap := memset_info heap in
    let i := fill_info_without_mount bprm (current st) (info heap) in
    let tid := current_pid_tgid st in
    commit_entry tid heap i st
  end.

(** ** Concrete inputs *)

(** A scratch buffer that still holds the record of an earlier event. *)
Definition stale_heap : struct_execve_heap :=
  {| heap_rest := [47; 98; 105; 110; 0];
     info := {| secureexec := 3;
                file := {| inode := {| i_nlink := 5; i_ino := 777 |};
                           mount := {| s_dev := 2049;
                                       type := [101; 120; 116; 52; 0; 0; 0] |} |};
                isset := 1 |} |}.

(** A task with real ids 1000/1000, thread id [tid], and an empty
    joined-info map; the scratch buffer is [heap]. *)
Definition state_of (heap : option struct_execve_heap) (tid : Z) : kstate :=
  {| current := task_struct.mk (Some (cred.mk 1000 1000 1000 1000));
     current_pid_tgid := tid;
     execve_heap := heap;
     execve_joined_info_map := ∅;
     joined_info_sets := [] |}.

(** An exec of a file with the given inode, with pending effective ids
    [euid] and [egid] and personality-clear flags [sec]. *)
Definition bprm_of (sec euid egid : Z) (ino : option inode.t) : linux_binprm.t :=
  linux_binprm.mk sec (Some (cred.mk 1000 1000 euid egid)) (Some (file.mk ino)).

(** "tmpfs", NUL-terminated, and "overlayfs", NUL-terminated. *)
Definition name_tmpfs : list Z := [116; 109; 112; 102; 115; 0].
Definition name_overlayfs : list Z := [111; 118; 101; 114; 108; 97; 121; 102; 115; 0].

Definition sb_of (dev : Z) (nm : option (list Z)) : super_block.t :=
  super_block.mk dev (Some (file_system_type.mk nm)).

(** Scenario C: no flags to clear, an unlinked file with inode number 42. *)
Definition bprm_C : linux_binprm.t :=
  bprm_of 0 1000 1000 (Some (inode.mk 42 0 (Some (sb_of 26 (Some name_tmpfs))))).

(** Scenario B: flags to clear, pending effective uid 0, real uid 1000. *)
Definition bprm_B : linux_binprm.t :=
  bprm_of 1 0 1000 (Some (inode.mk 1234 1 (Some (sb_of 2049 (Some name_overlayfs))))).

(** No flags to clear, pending effective uid 0, real uid 1000: a process
    that already runs with effective uid 0 executes an ordinary file. *)
Definition bprm_ungated : linux_binprm.t := bprm_of 0 0 1000 None.

(** ** Vocabulary of the further properties *)

(** The test of line 97 on what the program reads: the flags computed, the
    link count and the inode number. *)
Definition worthy_input (bprm : linux_binprm.t) (task : task_struct.t) : Prop :=
  classify bprm task <> 0 \/ (exec_nlink bprm = 0 /\ exec_ino bprm <> 0).

(** Another thread runs: [get_current_task()] and [get_current_pid_tgid()]
    now return [task] and [tid]; the maps are as they were left. *)
Definition switch_to (task : task_struct.t) (tid : Z) (st : kstate) : kstate :=
  {| current := task;
     current_pid_tgid := tid;
     execve_heap := execve_heap st;
     execve_joined_info_map := execve_joined_info_map st;
     joined_info_sets := joined_info_sets st |}.

(** ** Generic facts about the blocks *)

Section Blocks.
Variables (bprm : linux_binprm.t) (task : task_struct.t).

Lemma cache_entry_spec (r : msg_execve_info) :
  cache_entry r = true <-> cache_worthy r.
Proof.
  unfold cache_entry, cache_worthy.
  rewrite orb_true_iff, andb_true_iff, !negb_true_iff, !Z.eqb_neq, Z.eqb_eq.
  reflexivity.
Qed.

Lemma cache_entry_set_isset (v : Z) (r : msg_execve_info) :
  cache_entry (set_isset v r) = cache_entry r.
Proof. reflexivity. Qed.

Lemma read_inode_fields (ino : option inode.t) (i : msg_execve_info) :
  secureexec (read_inode ino i) = secureexec i
  /\ isset (read_inode ino i) = isset i
  /\ mount (file (read_inode ino i)) = mount (file i)
  /\ i_ino (inode (file (read_inode ino i))) = BPF_CORE_READ 0 ino inode.i_ino
  /\ i_nlink (inode (file (read_inode ino i))) = BPF_CORE_READ 0 ino inode.__i_nlink.
Proof. repeat split. Qed.

Lemma read_mount_frame (sb : option super_block.t) (i : msg_execve_info) :
  secureexec (read_mount sb i) = secureexec i
  /\ isset (read_mount sb i) = isset i
  /\ inode (file (read_mount sb i)) = inode (file i).
Proof.
  unfold read_mount. destruct sb as [s|]; [|done].
  destruct (BPF_CORE_READ None _ _); done.
Qed.

Lemma classify_creds_frame (i : msg_execve_info) :
  isset (classify_creds bprm task i) = isset i
  /\ file (classify_creds bprm task i) = file i.
Proof.
  unfold classify_creds.
  destruct (_ =? 0); [done|].
  destruct (negb _), (negb _); done.
Qed.

(** The fields of the record at line 96, from the inputs. *)
Lemma fill_info_fields :
  let r := fill_info bprm task zero_msg_execve_info in
  secureexec r = classify bprm task
  /\ i_ino (inode (file r)) = exec_ino bprm
  /\ i_nlink (inode (file r)) = exec_nlink bprm
  /\ isset r = 0.
Proof.
  unfold fill_info; cbv zeta.
  set (i0 := classify_creds bprm task zero_msg_execve_info).
  set (ino := BPF_CORE_READ None (linux_binprm.file bprm) file.f_inode).
  set (sb := BPF_CORE_READ None ino inode.i_sb).
  destruct (read_mount_frame sb (read_inode ino i0)) as (-> & -> & ->).
  destruct (read_inode_fields ino i0) as (-> & -> & _ & H1 & H2).
  destruct (classify_creds_frame zero_msg_execve_info) as (Hs & _).
  repeat split; done.
Qed.

Lemma classify_gate_closed :
  linux_binprm.per_clear bprm = 0 -> classify bprm task = 0.
Proof. unfold classify, classify_creds. intros ->. reflexivity. Qed.

Lemma classify_gate_open :
  linux_binprm.per_clear bprm <> 0 ->
  classify bprm task
  = Z.lor (if negb (pending_euid bprm =? real_uid task) then EXEC_SETUID else 0)
          (if negb (pending_egid bprm =? real_gid task) then EXEC_SETGID else 0).
Proof.
  intros Hsec. apply Z.eqb_neq in Hsec.
  unfold classify, classify_creds. rewrite Hsec.
  fold (pending_euid bprm) (pending_egid bprm) (real_uid task) (real_gid task).
  destruct (negb (_ =? real_uid task)), (negb (_ =? real_gid task)); reflexivity.
Qed.
End Blocks.

(** The run of the program when the scratch buffer is there. *)
Lemma run_with_heap (bprm : linux_binprm.t) (st : kstate) (heap : struct_execve_heap) :
  execve_heap st = Some heap ->
  tg_kp_bprm_committing_creds bprm st
  = commit_entry (current_pid_tgid st) (memset_info heap)
      (fill_info bprm (current st) zero_msg_execve_info) st.
Proof. unfold tg_kp_bprm_committing_creds. intros ->. reflexivity. Qed.

(** The run of the program when the lookup of the scratch buffer fails. *)
Lemma run_without_heap (bprm : linux_binprm.t) (st : kstate) :
  execve_heap st = None -> tg_kp_bprm_committing_creds bprm st = st.
Proof. unfold tg_kp_bprm_committing_creds. intros ->. reflexivity. Qed.

(** The two ways [commit_entry] can go. *)
Lemma commit_entry_worthy (tid : Z) (heap : struct_execve_heap) (i : msg_execve_info)
    (st : kstate) :
  cache_entry i = true ->
  let st' := commit_entry tid heap i st in
  heap_info st' = Some (set_isset 1 i)
  /\ joined_info_sets st' = (tid, set_isset 1 i) :: joined_info_sets st
  /\ execve_joined_info_map st' = <[tid := set_isset 1 i]> (execve_joined_info_map st).
Proof. unfold commit_entry. intros ->. repeat split. Qed.

Lemma commit_entry_unworthy (tid : Z) (heap : struct_execve_heap) (i : msg_execve_info)
    (st : kstate) :
  cache_entry i = false ->
  let st' := commit_entry tid heap i st in
  heap_info st' = Some i
  /\ joined_info_sets st' = joined_info_sets st
  /\ execve_joined_info_map st' = execve_joined_info_map st.
Proof. unfold commit_entry. intros ->. repeat split. Qed.

(** A history that grew by one entry is not the history it grew from. *)
Lemma cons_neq_self {A : Type} (x : A) (l : list A) : x :: l <> l.
Proof. intros H. apply (f_equal length) in H. simpl in H. lia. Qed.

(** ** The string read helper on a cleared field *)

Lemma cstring_nonzero (src : list Z) : Forall (fun c => c <> 0) (cstring src).
Proof.
  induction src as [|b rest IH]; simpl; [constructor|].
  destruct (Z.eqb_spec b 0); [constructor|]. constructor; assumption.
Qed.

Lemma fetch_str_S (c : nat) (b : Z) (rest : list Z) :
  fetch_str (S c) (b :: rest)
  = if b =? 0 then Some [b] else cons b <$> fetch_str c rest.
Proof. reflexivity. Qed.

Lemma fetch_str_stored (c : nat) (src bs : list Z) :
  fetch_str (S c) src = Some bs ->
  bs <> [] /\ removelast bs = take c (cstring src).
Proof.
  revert src bs. induction c as [|c IH]; intros [|b rest] bs; try discriminate;
    rewrite fetch_str_S; cbn [cstring]; destruct (Z.eqb_spec b 0) as [->|Hb];
    try (intros [= <-]; split; [done|reflexivity]).
  destruct (fetch_str (S c) rest) as [bs'|] eqn:Hf; simpl; [|discriminate].
    intros [= <-]. destruct (IH rest bs' Hf) as [Hne Hrl].
    split; [done|].
    destruct bs' as [|b' bs'']; [done|].
    change (removelast (b :: b' :: bs'')) with (b :: removelast (b' :: bs'')).
    rewrite Hrl. reflexivity.
Qed.

Lemma fetch_str_length (c : nat) (src bs : list Z) :
  fetch_str c src = Some bs -> (length bs <= c)%nat.
Proof.
  revert src bs. induction c as [|c IH]; intros src bs.
  - intros [= <-]. simpl. lia.
  - destruct src as [|b rest]; [discriminate|]. rewrite fetch_str_S.
    destruct (b =? 0).
    + intros [= <-]. simpl. lia.
    + destruct (fetch_str c rest) as [bs'|] eqn:Hf; simpl; [|discriminate].
      intros [= <-]. simpl. specialize (IH rest bs' Hf). lia.
Qed.

Lemma store_bytes_cleared (p : list Z) (n : nat) :
  (length p < n)%nat ->
  store_bytes (replicate n 0) (p ++ [0]) = p ++ replicate (n - length p) 0.
Proof.
  intros Hlt. unfold store_bytes.
  rewrite length_app, drop_replicate. simpl.
  rewrite <- app_assoc. f_equal.
  replace (n - length p)%nat with (S (n - (length p + 1))) by lia.
  reflexivity.
Qed.

Lemma store_bytes_within (dst bs : list Z) (n : nat) :
  (length bs <= n)%nat -> (n <= length dst)%nat ->
  length (store_bytes dst bs) = length dst
  /\ drop n (store_bytes dst bs) = drop n dst.
Proof.
  intros Hbs Hn. unfold store_bytes. split.
  - rewrite length_app, length_drop. lia.
  - rewrite drop_app_ge by lia. rewrite drop_drop. f_equal. lia.
Qed.

(** What the helper leaves in a buffer: the length of what it stores is at
    most [size]. *)
Lemma probe_read_str_within (dst src : list Z) (size : nat) :
  (size <= length dst)%nat ->
  length (fst (probe_read_str dst size src)) = length dst
  /\ drop size (fst (probe_read_str dst size src)) = drop size dst.
Proof.
  intros Hn. unfold probe_read_str.
  destruct size as [|c]; [by rewrite drop_0|].
  destruct (fetch_str (S c) src) as [bs|] eqn:Hf; cbn [fst].
  - apply store_bytes_within; [|assumption].
    destruct (fetch_str_stored _ _ _ Hf) as [Hne _].
    pose proof (fetch_str_length _ _ _ Hf) as Hlen.
    rewrite length_app. simpl.
    destruct bs as [|b bs'] using rev_ind; [done|].
    rewrite removelast_last. rewrite length_app in Hlen. simpl in Hlen. lia.
  - apply store_bytes_within; [|assumption]. rewrite length_replicate. lia.
Qed.

(** On a cleared field of [S c] bytes the helper leaves a prefix of the
    string, of at most [c] characters, and NULs after it. *)
Lemma probe_read_str_cleared (c : nat) (src : list Z) :
  exists k : nat,
    (k <= c)%nat /\ (k <= length (cstring src))%nat
    /\ fst (probe_read_str (replicate (S c) 0) (S c) src)
       = take k (cstring src) ++ replicate (S c - k) 0
    /\ (is_Some (fetch_str (S c) src) -> k = Nat.min c (length (cstring src))).
Proof.
  unfold probe_read_str.
  destruct (fetch_str (S c) src) as [bs|] eqn:Hf; cbn [fst].
  - destruct (fetch_str_stored _ _ _ Hf) as [_ ->].
    exists (Nat.min c (length (cstring src))).
    split; [lia|]. split; [lia|]. split; [|done].
    rewrite store_bytes_cleared by (rewrite length_take; lia).
    rewrite length_take.
    replace (take (c `min` length (cstring src)) (cstring src))
      with (take c (cstring src)); [done|].
    destruct (Nat.le_ge_cases c (length (cstring src))) as [H|H].
    + by rewrite Nat.min_l.
    + rewrite Nat.min_r by done. by rewrite !take_ge.
  - exists 0%nat. split; [lia|]. split; [lia|]. split.
    + unfold store_bytes. rewrite length_replicate, drop_replicate, take_0.
      replace (S c - S c)%nat with 0%nat by lia. simpl.
      by rewrite app_nil_r.
    + intros [x Hx]. discriminate.
Qed.

(** ** The outcome of a run *)

Lemma committed_not_written (st st' : kstate) (r : msg_execve_info) :
  committed st st' r -> not_written st st' -> False.
Proof.
  intros [Hc _] [Hn _]. rewrite Hn in Hc. symmetry in Hc.
  exact (cons_neq_self _ _ Hc).
Qed.

(** With the scratch buffer at hand a run ends in one of two ways. *)
Lemma run_outcome (bprm : linux_binprm.t) (st : kstate) (heap : struct_execve_heap) :
  execve_heap st = Some heap ->
  let i := fill_info bprm (current st) zero_msg_execve_info in
  let st' := tg_kp_bprm_committing_creds bprm st in
  (cache_entry i = true
   /\ heap_info st' = Some (set_isset 1 i) /\ committed st st' (set_isset 1 i))
  \/ (cache_entry i = false /\ heap_info st' = Some i /\ not_written st st').
Proof.
  intros Hheap i st'. subst st'. rewrite (run_with_heap _ _ _ Hheap). fold i.
  destruct (cache_entry i) eqn:Hc; [left|right]; (split; [reflexivity|]).
  - destruct (commit_entry_worthy (current_pid_tgid st) (memset_info heap) i st Hc)
      as (H1 & H2 & H3).
    split; [assumption|]. split; assumption.
  - destruct (commit_entry_unworthy (current_pid_tgid st) (memset_info heap) i st Hc)
      as (H1 & H2 & H3).
    split; [assumption|]. split; assumption.
Qed.

(** The cache-worthiness of the record at line 96, from the inputs. *)
Lemma fill_info_cache_worthy (bprm : linux_binprm.t) (task : task_struct.t) :
  cache_worthy (fill_info bprm task zero_msg_execve_info)
  <-> classify bprm task <> 0 \/ (exec_nlink bprm = 0 /\ exec_ino bprm <> 0).
Proof.
  unfold cache_worthy.
  destruct (fill_info_fields bprm task) as (-> & -> & -> & _). reflexivity.
Qed.

(** The record a run leaves in the scratch buffer, and whether it is
    stored, from the inputs. *)
Lemma run_record (bprm : linux_binprm.t) (st : kstate) (heap : struct_execve_heap) :
  execve_heap st = Some heap ->
  let st' := tg_kp_bprm_committing_creds bprm st in
  let flags := classify bprm (current st) in
  let worthy := flags <> 0 \/ (exec_nlink bprm = 0 /\ exec_ino bprm <> 0) in
  exists r,
    heap_info st' = Some r
    /\ secureexec r = flags
    /\ i_nlink (inode (file r)) = exec_nlink bprm
    /\ i_ino (inode (file r)) = exec_ino bprm
    /\ (worthy -> committed st st' r /\ isset r = 1)
    /\ (~ worthy -> not_written st st' /\ isset r = 0).
Proof.
  intros Hheap st' flags worthy.
  pose proof (fill_info_cache_worthy bprm (current st)) as Hw.
  fold flags in Hw. fold worthy in Hw.
  destruct (fill_info_fields bprm (current st)) as (Hsec & Hino & Hnl & Hset).
  destruct (run_outcome bprm st heap Hheap) as [(Hc & Hi & Hcm)|(Hc & Hi & Hnw)];
    fold st' in Hi.
  - apply cache_entry_spec, Hw in Hc. fold st' in Hcm.
    exists (set_isset 1 (fill_info bprm (current st) zero_msg_execve_info)).
    split_and!; try assumption; [intros _; by split|intros Hn; contradiction].
  - assert (Hnw' : ~ worthy).
    { intros H. apply Hw, cache_entry_spec in H. congruence. }
    fold st' in Hnw.
    exists (fill_info bprm (current st) zero_msg_execve_info).
    split_and!; try assumption; [intros H; contradiction|intros _; by split].
Qed.

(** ** The claims *)

(** C1: with the scratch buffer at hand, the record is stored in the
    joined-info map if and only if the flags computed are not 0, or the
    link count read is 0 and the inode number read is not 0; otherwise the
    map is not written.  With no flags to clear, link count 0 and inode
    number 42 the flags are 0 and the record is stored. *)
Theorem C1_cached_iff_cache_worthy
    (bprm : linux_binprm.t) (st : kstate) (heap : struct_execve_heap) :
  execve_heap st = Some heap ->
  let st' := tg_kp_bprm_committing_creds bprm st in
  let flags := classify bprm (current st) in
  let worthy := flags <> 0 \/ (exec_nlink bprm = 0 /\ exec_ino bprm <> 0) in
  (exists r,
      heap_info st' = Some r
      /\ secureexec r = flags
      /\ i_nlink (inode (file r)) = exec_nlink bprm
      /\ i_ino (inode (file r)) = exec_ino bprm
      /\ (worthy -> committed st st' r)
      /\ (~ worthy -> not_written st st'))
  /\ ((exists r, committed st st' r) <-> worthy)
  /\ (linux_binprm.per_clear bprm = 0 -> exec_nlink bprm = 0 -> exec_ino bprm = 42 ->
      flags = 0 /\ exists r, committed st st' r).
Proof.
  intros Hheap st' flags worthy.
  destruct (run_record bprm st heap Hheap) as (r & Hi & Hs & Hnl & Hino & Hw & Hnw).
  fold st' flags in Hi, Hs, Hw, Hnw. fold worthy in Hw, Hnw.
  split; [|split].
  - exists r. split_and!; try assumption; [intros H; by apply Hw|intros H; by apply Hnw].
  - split; [|intros H; exists r; by apply Hw].
    intros [r' Hr']. destruct (decide worthy) as [H|H]; [assumption|].
    destruct (committed_not_written _ _ _ Hr' (proj1 (Hnw H))).
  - intros Hsec Hn Hi42. split; [by apply classify_gate_closed|].
    exists r. apply Hw. right. split; [assumption|lia].
Qed.

Lemma C1_witness :
  execve_heap (state_of (Some stale_heap) 4242) = Some stale_heap
  /\ classify bprm_C (current (state_of (Some stale_heap) 4242)) = 0
  /\ exists r, committed (state_of (Some stale_heap) 4242)
                 (tg_kp_bprm_committing_creds bprm_C (state_of (Some stale_heap) 4242)) r.
Proof.
  split; [reflexivity|].
  apply (C1_cached_iff_cache_worthy bprm_C (state_of (Some stale_heap) 4242) stale_heap);
    reflexivity.
Defined.

(** C2: when [bprm->per_clear] is 0 the flags computed are 0, whatever the
    pending effective ids and the real ids of the current task are, and the
    record of the run has [secureexec] 0. *)
Theorem C2_no_flags_to_clear_no_escalation (bprm : linux_binprm.t) (st : kstate) :
  linux_binprm.per_clear bprm = 0 ->
  (forall task : task_struct.t, classify bprm task = 0)
  /\ (forall heap : struct_execve_heap,
        execve_heap st = Some heap ->
        exists r, heap_info (tg_kp_bprm_committing_creds bprm st) = Some r
                  /\ secureexec r = 0).
Proof.
  intros Hsec. split.
  - intros task. by apply classify_gate_closed.
  - intros heap Hheap.
    destruct (fill_info_fields bprm (current st)) as (Hs & _).
    rewrite (classify_gate_closed bprm (current st) Hsec) in Hs.
    destruct (run_outcome bprm st heap Hheap) as [(_ & Hi & _)|(_ & Hi & _)];
      eexists; (split; [exact Hi|exact Hs]).
Qed.

Lemma C2_witness :
  linux_binprm.per_clear (bprm_of 0 0 0 None) = 0
  /\ forall task : task_struct.t, classify (bprm_of 0 0 0 None) task = 0.
Proof.
  split; [reflexivity|].
  apply (C2_no_flags_to_clear_no_escalation (bprm_of 0 0 0 None) (state_of None 1)).
  reflexivity.
Defined.

(** C3: when [bprm->per_clear] is not 0, the flags contain [EXEC_SETUID]
    exactly when the effective uid of the pending credentials
    ([bprm->cred->euid]) differs from the real uid of the current task's
    credentials ([task->cred->uid]), and [EXEC_SETGID] exactly when the
    pending effective gid differs from the real gid; each bit follows its
    own pair of ids.  With the scratch buffer at hand the record carries
    these flags, and on a uid mismatch it is stored.  So it is for flags to
    clear 1, pending effective uid 0 and real uid 1000: [EXEC_SETUID] is set
    and the record is stored. *)
Theorem C3_id_mismatch_sets_flag (bprm : linux_binprm.t) (st : kstate) :
  linux_binprm.per_clear bprm <> 0 ->
  let task := current st in
  let flags := classify bprm task in
  let st' := tg_kp_bprm_committing_creds bprm st in
  (has_flag EXEC_SETUID flags <-> pending_euid bprm <> real_uid task)
  /\ (has_flag EXEC_SETGID flags <-> pending_egid bprm <> real_gid task)
  /\ (forall pending real : cred.t,
        linux_binprm.cred bprm = Some pending ->
        task_struct.cred task = Some real ->
        (has_flag EXEC_SETUID flags <-> cred.euid pending <> cred.uid real)
        /\ (has_flag EXEC_SETGID flags <-> cred.egid pending <> cred.gid real)
        /\ (forall heap : struct_execve_heap,
              execve_heap st = Some heap ->
              exists r,
                heap_info st' = Some r
                /\ secureexec r = flags
                /\ (has_flag EXEC_SETUID (secureexec r)
                    <-> cred.euid pending <> cred.uid real)
                /\ (has_flag EXEC_SETGID (secureexec r)
                    <-> cred.egid pending <> cred.gid real)
                /\ (cred.euid pending <> cred.uid real \/ cred.egid pending <> cred.gid real ->
                    committed st st' r /\ isset r = 1))
        /\ (linux_binprm.per_clear bprm = 1 ->
            cred.euid pending = 0 -> cred.uid real = 1000 ->
            has_flag EXEC_SETUID flags
            /\ forall heap : struct_execve_heap,
                 execve_heap st = Some heap ->
                 exists r, heap_info st' = Some r
                           /\ committed st st' r
                           /\ isset r = 1
                           /\ has_flag EXEC_SETUID (secureexec r))).
Proof.
  intros Hsec task flags st'.
  assert (Huid : has_flag EXEC_SETUID flags <-> pending_euid bprm <> real_uid task).
  { subst flags. rewrite (classify_gate_open bprm task Hsec). unfold has_flag.
    destruct (Z.eqb_spec (pending_euid bprm) (real_uid task)) as [He|He],
             (Z.eqb_spec (pending_egid bprm) (real_gid task)) as [Hg|Hg];
      cbn; split; intros H; (done || congruence). }
  assert (Hgid : has_flag EXEC_SETGID flags <-> pending_egid bprm <> real_gid task).
  { subst flags. rewrite (classify_gate_open bprm task Hsec). unfold has_flag.
    destruct (Z.eqb_spec (pending_euid bprm) (real_uid task)) as [He|He],
             (Z.eqb_spec (pending_egid bprm) (real_gid task)) as [Hg|Hg];
      cbn; split; intros H; (done || congruence). }
  split; [exact Huid|]. split; [exact Hgid|].
  intros pending real Hp Hr.
  assert (Heu : pending_euid bprm = cred.euid pending)
    by (unfold pending_euid; rewrite Hp; reflexivity).
  assert (Heg : pending_egid bprm = cred.egid pending)
    by (unfold pending_egid; rewrite Hp; reflexivity).
  assert (Hru : real_uid task = cred.uid real)
    by (unfold real_uid; rewrite Hr; reflexivity).
  assert (Hrg : real_gid task = cred.gid real)
    by (unfold real_gid; rewrite Hr; reflexivity).
  rewrite Heu, Hru in Huid. rewrite Heg, Hrg in Hgid.
  assert (Hrun : forall heap : struct_execve_heap,
             execve_heap st = Some heap ->
             exists r,
               heap_info st' = Some r
               /\ secureexec r = flags
               /\ (has_flag EXEC_SETUID (secureexec r)
                   <-> cred.euid pending <> cred.uid real)
               /\ (has_flag EXEC_SETGID (secureexec r)
                   <-> cred.egid pending <> cred.gid real)
               /\ (cred.euid pending <> cred.uid real
                   \/ cred.egid pending <> cred.gid real ->
                   committed st st' r /\ isset r = 1)).
  { intros heap Hheap.
    destruct (run_record bprm st heap Hheap) as (r & Hi & Hs & _ & _ & Hw & _).
    fold st' in Hi, Hw. change (secureexec r = flags) in Hs.
    exists r. rewrite Hs. split_and!; try assumption; [reflexivity|].
    intros Hne. apply Hw. left. change (flags <> 0). intros H0.
    destruct Hne as [Hne|Hne]; [apply Huid in Hne|apply Hgid in Hne];
      unfold has_flag in Hne; rewrite H0 in Hne; done. }
  split_and!; try assumption.
  intros _ He Hu.
  assert (Hne : cred.euid pending <> cred.uid real) by lia.
  split; [by apply Huid|].
  intros heap Hheap. destruct (Hrun heap Hheap) as (r & Hi & _ & Hsu & _ & Hc).
  destruct (Hc (or_introl Hne)) as [Hcm His].
  exists r. split_and!; try assumption. by apply Hsu.
Qed.

Lemma C3_witness :
  let st := state_of (Some stale_heap) 7 in
  let st' := tg_kp_bprm_committing_creds bprm_B st in
  linux_binprm.per_clear bprm_B <> 0
  /\ linux_binprm.cred bprm_B = Some (cred.mk 1000 1000 0 1000)
  /\ task_struct.cred (current st) = Some (cred.mk 1000 1000 1000 1000)
  /\ has_flag EXEC_SETUID (classify bprm_B (current st))
  /\ ~ has_flag EXEC_SETGID (classify bprm_B (current st))
  /\ exists r,
       heap_info st' = Some r
       /\ committed st st' r
       /\ isset r = 1
       /\ has_flag EXEC_SETUID (secureexec r).
Proof.
  intros st st'.
  assert (Hsec : linux_binprm.per_clear bprm_B <> 0) by done.
  destruct (C3_id_mismatch_sets_flag bprm_B st Hsec) as (_ & _ & Hfields).
  destruct (Hfields (cred.mk 1000 1000 0 1000) (cred.mk 1000 1000 1000 1000)
                    eq_refl eq_refl) as (_ & Hg & _ & Hb).
  destruct (Hb eq_refl eq_refl eq_refl) as [Hu Hstored].
  split_and!; [exact Hsec|reflexivity|reflexivity|exact Hu| |].
  - intros H. apply Hg in H. by apply H.
  - exact (Hstored stale_heap eq_refl).
Defined.

(** Scenario B, evaluated: the flags are [EXEC_SETUID] alone and the record
    is stored under the thread id. *)
Example scenario_B_flags_and_store :
  let st := state_of (Some stale_heap) 7 in
  let st' := tg_kp_bprm_committing_creds bprm_B st in
  classify bprm_B (current st) = EXEC_SETUID
  /\ joined_info_sets st'
     = [(7, {| secureexec := 1;
               file := {| inode := {| i_nlink := 1; i_ino := 1234 |};
                          mount := {| s_dev := 2049;
                                      type := [111; 118; 101; 114; 108; 97; 0] |} |};
               isset := 1 |})]
  /\ execve_joined_info_map st' !! 7 = (snd <$> head (joined_info_sets st')).
Proof. split_and!; reflexivity. Qed.

(** C4: when the lookup of the scratch buffer fails the run changes
    nothing: the state after it is the state before it, so no record is
    built and the joined-info map is not written. *)
Theorem C4_no_heap_no_effect (bprm : linux_binprm.t) (st : kstate) :
  execve_heap st = None ->
  let st' := tg_kp_bprm_committing_creds bprm st in
  st' = st /\ heap_info st' = None /\ not_written st st'.
Proof.
  intros Hheap st'. subst st'. rewrite (run_without_heap bprm st Hheap).
  unfold heap_info, not_written. rewrite Hheap. done.
Qed.

Lemma C4_witness :
  execve_heap (state_of None 5) = None
  /\ tg_kp_bprm_committing_creds bprm_B (state_of None 5) = state_of None 5.
Proof.
  split; [reflexivity|].
  apply (C4_no_heap_no_effect bprm_B (state_of None 5)). reflexivity.
Defined.

(** C5: at the end of a run that had the scratch buffer, [isset] of the
    record is 1 if and only if the record was stored under the current
    thread id, and if and only if it passes the test of line 97; otherwise
    [isset] is 0 and the map is not written.  A stored record is the record
    of the buffer, has [isset] 1 and passes the test, and a map whose
    records all do so keeps that property over a run. *)
Theorem C5_isset_iff_stored (bprm : linux_binprm.t) (st : kstate) :
  let st' := tg_kp_bprm_committing_creds bprm st in
  (forall heap : struct_execve_heap,
      execve_heap st = Some heap ->
      exists r,
        heap_info st' = Some r
        /\ (isset r = 1 <-> committed st st' r)
        /\ (isset r = 1 <-> cache_worthy r)
        /\ (isset r <> 1 -> isset r = 0 /\ not_written st st')
        /\ (forall r', committed st st' r' ->
                       r' = r /\ isset r' = 1 /\ cache_worthy r'))
  /\ (map_records_set (execve_joined_info_map st) ->
      map_records_set (execve_joined_info_map st')).
Proof.
  intros st'.
  assert (Hrun : forall heap : struct_execve_heap,
      execve_heap st = Some heap ->
      exists r,
        heap_info st' = Some r
        /\ (isset r = 1 <-> committed st st' r)
        /\ (isset r = 1 <-> cache_worthy r)
        /\ (isset r <> 1 -> isset r = 0 /\ not_written st st')
        /\ (forall r', committed st st' r' ->
                       r' = r /\ isset r' = 1 /\ cache_worthy r')).
  { intros heap Hheap.
    destruct (fill_info_fields bprm (current st)) as (_ & _ & _ & Hset).
    destruct (run_outcome bprm st heap Hheap) as [(Hc & Hi & Hcm)|(Hc & Hi & Hnw)];
      fold st' in Hi.
    - fold st' in Hcm. apply cache_entry_spec in Hc.
      exists (set_isset 1 (fill_info bprm (current st) zero_msg_execve_info)).
      split_and!; try assumption.
      + split; [intros _; assumption|reflexivity].
      + split; [intros _; assumption|reflexivity].
      + intros H. by destruct H.
      + intros r' [Hr' _]. destruct Hcm as [Hs _]. rewrite Hs in Hr'.
        injection Hr' as <-. split_and!; done.
    - fold st' in Hnw.
      assert (Hnc : ~ cache_worthy (fill_info bprm (current st) zero_msg_execve_info)).
      { intros H. apply cache_entry_spec in H. congruence. }
      exists (fill_info bprm (current st) zero_msg_execve_info).
      split_and!; try assumption.
      + split; [intros H; rewrite Hset in H; done|].
        intros H. destruct (committed_not_written _ _ _ H Hnw).
      + split; [intros H; rewrite Hset in H; done|intros H; contradiction].
      + intros _. by split.
      + intros r' H. destruct (committed_not_written _ _ _ H Hnw). }
  split; [exact Hrun|].
  intros Hinv. destruct (execve_heap st) as [heap|] eqn:Hheap.
  - destruct (Hrun heap eq_refl) as (r & Hi & Hst & Hcw & Hno & _).
    destruct (decide (isset r = 1)) as [H1|H1].
    + destruct (proj1 Hst H1) as [_ Hm]. rewrite Hm.
      intros tid r'. rewrite lookup_insert. case_decide.
      * intros [= <-]. split; [assumption|by apply Hcw].
      * apply Hinv.
    + destruct (Hno H1) as [_ [_ Hm]]. by rewrite Hm.
  - subst st'. by rewrite (run_without_heap bprm st Hheap).
Qed.

Lemma C5_witness :
  execve_heap (state_of (Some stale_heap) 9) = Some stale_heap
  /\ exists r,
       heap_info (tg_kp_bprm_committing_creds bprm_B (state_of (Some stale_heap) 9)) = Some r
       /\ (isset r = 1
           <-> committed (state_of (Some stale_heap) 9)
                 (tg_kp_bprm_committing_creds bprm_B (state_of (Some stale_heap) 9)) r).
Proof.
  split; [reflexivity|].
  destruct (proj1 (C5_isset_iff_stored bprm_B (state_of (Some stale_heap) 9))
                  stale_heap eq_refl) as (r & Hi & Hst & _).
  exists r. split; assumption.
Defined.

(** ** The classifier without its gate *)

Lemma classify_always_compare_eq (bprm : linux_binprm.t) (task : task_struct.t) :
  classify_always_compare bprm task
  = Z.lor (if negb (pending_euid bprm =? real_uid task) then EXEC_SETUID else 0)
          (if negb (pending_egid bprm =? real_gid task) then EXEC_SETGID else 0).
Proof.
  unfold classify_always_compare, classify_creds_always.
  fold (pending_euid bprm) (pending_egid bprm) (real_uid task) (real_gid task).
  destruct (negb (_ =? real_uid task)), (negb (_ =? real_gid task)); reflexivity.
Qed.

(** C6, as stated, fails: with no flags to clear and a pending effective
    uid that differs from the real uid, the program computes no flag and
    the classifier that always compares the ids computes [EXEC_SETUID]. *)
Lemma C6_counterexample :
  classify bprm_ungated (current (state_of None 1)) = 0
  /\ classify_always_compare bprm_ungated (current (state_of None 1)) = EXEC_SETUID
  /\ ~ (forall (bprm : linux_binprm.t) (task : task_struct.t),
          classify bprm task = classify_always_compare bprm task).
Proof.
  split; [reflexivity|]. split; [reflexivity|].
  intros H. specialize (H bprm_ungated (current (state_of None 1))). discriminate H.
Qed.

(** C6, amended: the program's classifier and the one that always compares
    the ids compute the same flags exactly on the inputs where
    [bprm->per_clear] is not 0 or both pairs of ids are equal. *)
Theorem C6_two_stage_agrees_when_gate_open
    (bprm : linux_binprm.t) (task : task_struct.t) :
  classify bprm task = classify_always_compare bprm task
  <-> (linux_binprm.per_clear bprm <> 0
       \/ (pending_euid bprm = real_uid task /\ pending_egid bprm = real_gid task)).
Proof.
  rewrite classify_always_compare_eq.
  destruct (decide (linux_binprm.per_clear bprm = 0)) as [Hsec|Hsec].
  - rewrite (classify_gate_closed bprm task Hsec).
    destruct (Z.eqb_spec (pending_euid bprm) (real_uid task)) as [He|He],
             (Z.eqb_spec (pending_egid bprm) (real_gid task)) as [Hg|Hg];
      cbn; split; try done; try (intros [H|[H1 H2]]; done); intros _; by right.
  - rewrite (classify_gate_open bprm task Hsec). split; [intros _; by left|done].
Qed.

(** ** The mount fields *)

Lemma read_mount_mount (sb : option super_block.t) (i : msg_execve_info) :
  mount (file (read_mount sb i))
  = match sb with
    | None => mount (file i)
    | Some s =>
      {| s_dev := super_block.s_dev s;
         type := match sb_type_name sb with
                 | Some str => fst (probe_read_str (type (mount (file i))) 7 str)
                 | None => type (mount (file i))
                 end |}
    end.
Proof.
  unfold read_mount, sb_type_name. destruct sb as [s|]; [|reflexivity].
  destruct (BPF_CORE_READ None (BPF_CORE_READ None (Some s) super_block.s_type)
                          file_system_type.name); reflexivity.
Qed.

(** The mount fields of the record at line 96 come from the cleared record
    and the super block alone. *)
Lemma fill_info_mount (bprm : linux_binprm.t) (task : task_struct.t) :
  mount (file (fill_info bprm task zero_msg_execve_info))
  = mount (file (read_mount (exec_sb bprm) zero_msg_execve_info)).
Proof.
  unfold fill_info; cbv zeta. fold (exec_inode bprm). fold (exec_sb bprm).
  rewrite !read_mount_mount.
  destruct (read_inode_fields (exec_inode bprm)
              (classify_creds bprm task zero_msg_execve_info)) as (_ & _ & -> & _).
  destruct (classify_creds_frame bprm task zero_msg_execve_info) as (_ & ->).
  reflexivity.
Qed.

(** The mount fields of the record a run leaves in the scratch buffer. *)
Lemma run_mount (bprm : linux_binprm.t) (st : kstate) (heap : struct_execve_heap) :
  execve_heap st = Some heap ->
  exists r,
    heap_info (tg_kp_bprm_committing_creds bprm st) = Some r
    /\ mount (file r) = mount (file (read_mount (exec_sb bprm) zero_msg_execve_info)).
Proof.
  intros Hheap. rewrite <- (fill_info_mount bprm (current st)).
  destruct (run_outcome bprm st heap Hheap) as [(_ & Hi & _)|(_ & Hi & _)];
    eexists; (split; [exact Hi|reflexivity]).
Qed.

(** C7: whatever the bytes at the type name of the file system are (an
    empty string, a short or a long one, an unreadable one), the [type]
    field of the record is 7 bytes long and holds the first [k] characters
    of the name, [k <= 6], none of them NUL, and then NULs up to its end;
    for a readable name [k] is the smaller of 6 and the length of the name.
    The helper called with size 7 leaves every byte after the first 7 of
    its destination as it was. *)
Theorem C7_type_truncated_within_field
    (bprm : linux_binprm.t) (st : kstate) (heap : struct_execve_heap) :
  execve_heap st = Some heap ->
  exists r,
    heap_info (tg_kp_bprm_committing_creds bprm st) = Some r
    /\ length (type (mount (file r))) = TYPE_SIZE
    /\ (forall str : list Z,
          sb_type_name (exec_sb bprm) = Some str ->
          exists k : nat,
            (k <= 6)%nat /\ (k <= length (cstring str))%nat
            /\ type (mount (file r)) = take k (cstring str) ++ replicate (7 - k) 0
            /\ Forall (fun c => c <> 0) (take k (cstring str))
            /\ (is_Some (fetch_str 7 str) -> k = Nat.min 6 (length (cstring str))))
    /\ (sb_type_name (exec_sb bprm) = None ->
        type (mount (file r)) = replicate 7 0)
    /\ (forall dst str : list Z,
          (7 <= length dst)%nat ->
          length (fst (probe_read_str dst 7 str)) = length dst
          /\ drop 7 (fst (probe_read_str dst 7 str)) = drop 7 dst).
Proof.
  intros Hheap. destruct (run_mount bprm st heap Hheap) as (r & Hi & Hm).
  exists r. split; [assumption|]. rewrite Hm, read_mount_mount.
  assert (Hnone : sb_type_name None = None) by reflexivity.
  destruct (exec_sb bprm) as [s|] eqn:Hsb.
  - cbn [type]. destruct (sb_type_name (Some s)) as [str|] eqn:Hname.
    + destruct (probe_read_str_cleared 6 str) as (k & Hk6 & Hkl & Hty & Hmin).
      change (type (mount (file zero_msg_execve_info))) with (replicate 7 0).
      split_and!.
      * rewrite Hty, length_app, length_take, length_replicate. unfold TYPE_SIZE. lia.
      * intros str' [= <-]. exists k. split_and!; try assumption.
        apply Forall_take, cstring_nonzero.
      * intros H. discriminate H.
      * intros dst str' Hd. by apply probe_read_str_within.
    + split_and!; [reflexivity| |reflexivity|].
      * intros str H. discriminate H.
      * intros dst str' Hd. by apply probe_read_str_within.
  - rewrite Hnone. split_and!; [reflexivity| |reflexivity|].
    + intros str H. discriminate H.
    + intros dst str' Hd. by apply probe_read_str_within.
Qed.

Lemma C7_witness :
  execve_heap (state_of (Some stale_heap) 11) = Some stale_heap
  /\ exists r,
       heap_info (tg_kp_bprm_committing_creds bprm_B (state_of (Some stale_heap) 11))
       = Some r
       /\ length (type (mount (file r))) = TYPE_SIZE.
Proof.
  split; [reflexivity|].
  destruct (C7_type_truncated_within_field bprm_B (state_of (Some stale_heap) 11)
              stale_heap eq_refl) as (r & Hi & Hlen & _).
  exists r. split; assumption.
Defined.

(** Two runs, evaluated: a long type name is cut to 6 characters, a short
    one is followed by NULs; the record of the earlier event is gone. *)
Example run_B_heap_info :
  heap_info (tg_kp_bprm_committing_creds bprm_B (state_of (Some stale_heap) 11))
  = Some {| secureexec := 1;
            file := {| inode := {| i_nlink := 1; i_ino := 1234 |};
                       mount := {| s_dev := 2049;
                                   type := [111; 118; 101; 114; 108; 97; 0] |} |};
            isset := 1 |}.
Proof. reflexivity. Qed.

Example run_C_heap_info :
  heap_info (tg_kp_bprm_committing_creds bprm_C (state_of (Some stale_heap) 11))
  = Some {| secureexec := 0;
            file := {| inode := {| i_nlink := 0; i_ino := 42 |};
                       mount := {| s_dev := 26;
                                   type := [116; 109; 112; 102; 115; 0; 0] |} |};
            isset := 1 |}.
Proof. reflexivity. Qed.

(** The helper on the cleared field: an empty name, a name of exactly 6
    characters, one of 7, and a name that cannot be read to its end. *)
Example probe_read_str_empty :
  probe_read_str (replicate 7 0) 7 [0; 120; 120] = ([0; 0; 0; 0; 0; 0; 0], 1).
Proof. reflexivity. Qed.

Example probe_read_str_six :
  probe_read_str (replicate 7 0) 7 [115; 121; 115; 102; 115; 50; 0]
  = ([115; 121; 115; 102; 115; 50; 0], 7).
Proof. reflexivity. Qed.

Example probe_read_str_seven :
  probe_read_str (replicate 7 0) 7 [115; 121; 115; 102; 115; 50; 51; 0]
  = ([115; 121; 115; 102; 115; 50; 0], 7).
Proof. reflexivity. Qed.

Example probe_read_str_fault :
  probe_read_str [1; 2; 3; 4; 5; 6; 7; 8] 7 [101; 120; 116]
  = ([0; 0; 0; 0; 0; 0; 0; 8], -14).
Proof. reflexivity. Qed.

(** Scenario A: no flags to clear, equal ids, three links: nothing is
    stored and [isset] stays 0. *)
Example run_A_not_stored :
  let st := state_of (Some stale_heap) 11 in
  let st' := tg_kp_bprm_committing_creds
               (bprm_of 0 1000 1000 (Some (inode.mk 99 3 None))) st in
  (isset <$> heap_info st') = Some 0 /\ joined_info_sets st' = [].
Proof. split; reflexivity. Qed.

(** C8: when the inode has no super block, the run is the run without the
    mount block: same record (flags, inode number, link count, [isset]),
    same decision, same map; and the mount fields of the record are 0. *)
Theorem C8_no_super_block_no_mount (bprm : linux_binprm.t) (st : kstate) :
  exec_sb bprm = None ->
  tg_kp_bprm_committing_creds bprm st = tg_kp_without_mount bprm st
  /\ (forall heap : struct_execve_heap,
        execve_heap st = Some heap ->
        exists r, heap_info (tg_kp_bprm_committing_creds bprm st) = Some r
                  /\ s_dev (mount (file r)) = 0
                  /\ type (mount (file r)) = replicate TYPE_SIZE 0).
Proof.
  intros Hsb. split.
  - unfold tg_kp_bprm_committing_creds, tg_kp_without_mount.
    destruct (execve_heap st) as [heap|]; [|reflexivity].
    cbv zeta. f_equal.
    unfold fill_info, fill_info_without_mount; cbv zeta.
    fold (exec_inode bprm). fold (exec_sb bprm). rewrite Hsb. reflexivity.
  - intros heap Hheap. destruct (run_mount bprm st heap Hheap) as (r & Hi & Hm).
    exists r. split; [assumption|]. rewrite Hm, Hsb. split; reflexivity.
Qed.

Lemma C8_witness :
  exec_sb (bprm_of 1 0 1000 (Some (inode.mk 99 3 None))) = None
  /\ tg_kp_bprm_committing_creds (bprm_of 1 0 1000 (Some (inode.mk 99 3 None)))
       (state_of (Some stale_heap) 13)
     = tg_kp_without_mount (bprm_of 1 0 1000 (Some (inode.mk 99 3 None)))
         (state_of (Some stale_heap) 13).
Proof.
  split; [reflexivity|].
  apply (C8_no_super_block_no_mount (bprm_of 1 0 1000 (Some (inode.mk 99 3 None)))
           (state_of (Some stale_heap) 13)).
  reflexivity.
Defined.

(** C9: when the inode has a super block whose type name pointer reads as
    null, the device field of the record is the device of the super block
    and the type field is all NUL. *)
Theorem C9_device_without_type_name
    (bprm : linux_binprm.t) (st : kstate) (heap : struct_execve_heap)
    (sb : super_block.t) :
  execve_heap st = Some heap ->
  exec_sb bprm = Some sb ->
  sb_type_name (Some sb) = None ->
  exists r,
    heap_info (tg_kp_bprm_committing_creds bprm st) = Some r
    /\ s_dev (mount (file r)) = super_block.s_dev sb
    /\ type (mount (file r)) = replicate TYPE_SIZE 0.
Proof.
  intros Hheap Hsb Hname. destruct (run_mount bprm st heap Hheap) as (r & Hi & Hm).
  exists r. split; [assumption|].
  rewrite Hm, Hsb, read_mount_mount, Hname. split; reflexivity.
Qed.

Lemma C9_witness :
  let bprm := bprm_of 0 1000 1000 (Some (inode.mk 42 0 (Some (sb_of 26 None)))) in
  let st := state_of (Some stale_heap) 15 in
  execve_heap st = Some stale_heap
  /\ exec_sb bprm = Some (sb_of 26 None)
  /\ sb_type_name (Some (sb_of 26 None)) = None
  /\ exists r,
       heap_info (tg_kp_bprm_committing_creds bprm st) = Some r
       /\ s_dev (mount (file r)) = 26
       /\ type (mount (file r)) = replicate TYPE_SIZE 0.
Proof.
  intros bprm st. split_and!; try reflexivity.
  apply (C9_device_without_type_name bprm st stale_heap (sb_of 26 None)); reflexivity.
Defined.

(** Two runs on the same inputs, from any two scratch buffers. *)
Lemma runs_agree (bprm : linux_binprm.t) (st1 st2 : kstate) (h1 h2 : struct_execve_heap) :
  current st1 = current st2 ->
  execve_heap st1 = Some h1 ->
  execve_heap st2 = Some h2 ->
  let st1' := tg_kp_bprm_committing_creds bprm st1 in
  let st2' := tg_kp_bprm_committing_creds bprm st2 in
  heap_info st1' = heap_info st2'
  /\ ((exists r, heap_info st1' = Some r
                 /\ committed st1 st1' r /\ committed st2 st2' r)
      \/ (not_written st1 st1' /\ not_written st2 st2')).
Proof.
  intros Hcur Hh1 Hh2 st1' st2'.
  destruct (run_outcome bprm st1 h1 Hh1) as [(Hc1 & Hi1 & Hcm1)|(Hc1 & Hi1 & Hnw1)];
    destruct (run_outcome bprm st2 h2 Hh2) as [(Hc2 & Hi2 & Hcm2)|(Hc2 & Hi2 & Hnw2)];
    fold st1' in Hi1; fold st2' in Hi2; rewrite <- Hcur in *; try congruence.
  - fold st1' in Hcm1. fold st2' in Hcm2.
    split; [congruence|].
    left. eexists. split_and!; [exact Hi1|exact Hcm1|exact Hcm2].
  - fold st1' in Hnw1. fold st2' in Hnw2.
    split; [congruence|]. right. by split.
Qed.

(** C10: two runs on the same inputs (the same [bprm], current task and
    thread id) leave the same record in the scratch buffer, whatever the
    buffers held before, and either both store that same record under the
    same thread id or neither writes the map; the record is the one the run
    leaves when the buffer is clear from the start. *)
Theorem C10_record_depends_on_inputs_only
    (bprm : linux_binprm.t) (st1 st2 : kstate) (h1 h2 : struct_execve_heap) :
  current st1 = current st2 ->
  current_pid_tgid st1 = current_pid_tgid st2 ->
  execve_heap st1 = Some h1 ->
  execve_heap st2 = Some h2 ->
  let st1' := tg_kp_bprm_committing_creds bprm st1 in
  let st2' := tg_kp_bprm_committing_creds bprm st2 in
  heap_info st1' = heap_info st2'
  /\ ((exists r, heap_info st1' = Some r
                 /\ joined_info_sets st1' = (current_pid_tgid st1, r) :: joined_info_sets st1
                 /\ joined_info_sets st2' = (current_pid_tgid st1, r) :: joined_info_sets st2
                 /\ execve_joined_info_map st1' !! current_pid_tgid st1 = Some r
                 /\ execve_joined_info_map st2' !! current_pid_tgid st1 = Some r)
      \/ (not_written st1 st1' /\ not_written st2 st2'))
  /\ heap_info st1'
     = heap_info (tg_kp_bprm_committing_creds bprm
                    (set_heap_info zero_msg_execve_info h1 st1)).
Proof.
  intros Hcur Htid Hh1 Hh2 st1' st2'.
  destruct (runs_agree bprm st1 st2 h1 h2 Hcur Hh1 Hh2) as [He Hst].
  fold st1' st2' in He, Hst.
  split; [exact He|]. split.
  - destruct Hst as [(r & Hi & [Hs1 Hm1] & [Hs2 Hm2])|Hnw]; [left|by right].
    exists r. rewrite <- Htid in Hs2, Hm2.
    split_and!; try assumption.
    + rewrite Hm1. apply lookup_insert_eq.
    + rewrite Hm2. apply lookup_insert_eq.
  - exact (proj1 (runs_agree bprm st1 (set_heap_info zero_msg_execve_info h1 st1)
                    h1 (memset_info h1) eq_refl Hh1 eq_refl)).
Qed.

Lemma C10_witness :
  let st1 := state_of (Some stale_heap) 17 in
  let st2 := state_of (Some (mk_execve_heap [] zero_msg_execve_info)) 17 in
  current st1 = current st2
  /\ heap_info (tg_kp_bprm_committing_creds bprm_B st1)
     = heap_info (tg_kp_bprm_committing_creds bprm_B st2).
Proof.
  intros st1 st2. split; [reflexivity|].
  apply (C10_record_depends_on_inputs_only bprm_B st1 st2
           stale_heap (mk_execve_heap [] zero_msg_execve_info)); reflexivity.
Defined.

(** ** Further properties of the program *)

(** The state after a run, field by field. *)
Lemma run_state (bprm : linux_binprm.t) (st : kstate) :
  let st' := tg_kp_bprm_committing_creds bprm st in
  let i := fill_info bprm (current st) zero_msg_execve_info in
  current st' = current st
  /\ current_pid_tgid st' = current_pid_tgid st
  /\ (heap_rest <$> execve_heap st') = (heap_rest <$> execve_heap st)
  /\ execve_joined_info_map st'
     = match execve_heap st with
       | Some _ =>
         if cache_entry i
         then <[current_pid_tgid st := set_isset 1 i]> (execve_joined_info_map st)
         else execve_joined_info_map st
       | None => execve_joined_info_map st
       end
  /\ heap_info st'
     = match execve_heap st with
       | Some _ => Some (if cache_entry i then set_isset 1 i else i)
       | None => None
       end.
Proof.
  cbv zeta. unfold tg_kp_bprm_committing_creds, heap_info.
  destruct (execve_heap st) as [heap|] eqn:Hheap; [|rewrite Hheap; done].
  cbv zeta. unfold commit_entry. change (info (memset_info heap)) with zero_msg_execve_info.
  destruct (cache_entry (fill_info bprm (current st) zero_msg_execve_info));
    split_and!; reflexivity.
Qed.

(** X1: a run leaves the current task, the thread id and the other members
    of the scratch buffer as they were, and the entry of every other thread
    id in the joined-info map as it was. *)
Theorem X1_run_touches_own_slot_only (bprm : linux_binprm.t) (st : kstate) :
  let st' := tg_kp_bprm_committing_creds bprm st in
  current st' = current st
  /\ current_pid_tgid st' = current_pid_tgid st
  /\ (heap_rest <$> execve_heap st') = (heap_rest <$> execve_heap st)
  /\ (forall tid : Z,
        tid <> current_pid_tgid st ->
        execve_joined_info_map st' !! tid = execve_joined_info_map st !! tid).
Proof.
  intros st'. destruct (run_state bprm st) as (Hc & Ht & Hr & Hm & _).
  fold st' in Hc, Ht, Hr, Hm. split_and!; try assumption.
  intros tid Hne. rewrite Hm.
  destruct (execve_heap st); [|reflexivity].
  destruct (cache_entry _); [|reflexivity].
  by rewrite lookup_insert_ne.
Qed.

(** A run keeps the scratch buffer in place. *)
Lemma run_keeps_heap (bprm : linux_binprm.t) (st : kstate) (heap : struct_execve_heap) :
  execve_heap st = Some heap ->
  exists heap', execve_heap (tg_kp_bprm_committing_creds bprm st) = Some heap'.
Proof.
  intros Hheap. destruct (run_state bprm st) as (_ & _ & Hr & _).
  rewrite Hheap in Hr.
  destruct (execve_heap (tg_kp_bprm_committing_creds bprm st)) as [h|]; [eauto|done].
Qed.

(** X2: two runs in a row on one thread.  When the second exec passes the
    test of line 97 its record replaces whatever the first left under the
    thread id.  When it does not, the entry is left as the first run left
    it: the record of the first exec, if that one was stored, stays in the
    map although the scratch buffer now holds a record with [isset] 0. *)
Theorem X2_second_run_overwrites_or_keeps
    (b1 b2 : linux_binprm.t) (st : kstate) (heap : struct_execve_heap) :
  execve_heap st = Some heap ->
  let tid := current_pid_tgid st in
  let st1 := tg_kp_bprm_committing_creds b1 st in
  let st2 := tg_kp_bprm_committing_creds b2 st1 in
  (worthy_input b2 (current st) ->
   exists r2, heap_info st2 = Some r2 /\ isset r2 = 1
              /\ execve_joined_info_map st2 !! tid = Some r2)
  /\ (~ worthy_input b2 (current st) ->
      execve_joined_info_map st2 !! tid = execve_joined_info_map st1 !! tid
      /\ exists r2, heap_info st2 = Some r2 /\ isset r2 = 0
         /\ (worthy_input b1 (current st) ->
             exists r1, heap_info st1 = Some r1 /\ isset r1 = 1
                        /\ execve_joined_info_map st2 !! tid = Some r1)).
Proof.
  intros Hheap tid st1 st2.
  destruct (run_state b1 st) as (Hc & Ht & _). fold st1 in Hc, Ht.
  destruct (run_keeps_heap b1 st heap Hheap) as [h1 Hh1]. fold st1 in Hh1.
  destruct (run_record b1 st heap Hheap) as (r1 & Hi1 & _ & _ & _ & Hw1 & _).
  destruct (run_record b2 st1 h1 Hh1) as (r2 & Hi2 & _ & _ & _ & Hw2 & Hn2).
  fold st1 in Hi1, Hw1. fold st2 in Hi2, Hw2, Hn2.
  rewrite Hc in Hw2, Hn2. unfold worthy_input. split.
  - intros H2. destruct (Hw2 H2) as [[_ Hm] Hs]. exists r2.
    split_and!; try assumption. rewrite Hm, Ht. apply lookup_insert_eq.
  - intros H2. destruct (Hn2 H2) as [[_ Hm] Hs]. split; [by rewrite Hm|].
    exists r2. split_and!; try assumption.
    intros H1. destruct (Hw1 H1) as [[_ Hm1] Hs1]. exists r1.
    split_and!; try assumption. rewrite Hm, Hm1. apply lookup_insert_eq.
Qed.

Lemma X2_witness :
  let st := state_of (Some stale_heap) 21 in
  let plain := bprm_of 0 1000 1000 (Some (inode.mk 99 3 None)) in
  execve_heap st = Some stale_heap
  /\ worthy_input bprm_B (current st)
  /\ ~ worthy_input plain (current st)
  /\ exists r2,
       heap_info (tg_kp_bprm_committing_creds plain
                    (tg_kp_bprm_committing_creds bprm_B st)) = Some r2
       /\ isset r2 = 0
       /\ exists r1,
            heap_info (tg_kp_bprm_committing_creds bprm_B st) = Some r1
            /\ isset r1 = 1
            /\ execve_joined_info_map
                 (tg_kp_bprm_committing_creds plain
                    (tg_kp_bprm_committing_creds bprm_B st)) !! 21 = Some r1.
Proof.
  intros st plain.
  assert (Hw : worthy_input bprm_B (current st)) by (left; done).
  assert (Hn : ~ worthy_input plain (current st)).
  { intros [H|[H _]]; [by apply H|discriminate H]. }
  split_and!; [reflexivity|exact Hw|exact Hn|].
  destruct (proj2 (X2_second_run_overwrites_or_keeps bprm_B plain st stale_heap eq_refl) Hn)
    as (_ & r2 & Hi2 & Hs2 & Hk).
  exists r2. split_and!; try assumption. exact (Hk Hw).
Defined.

(** X3: the flags computed are one of 0, [EXEC_SETUID], [EXEC_SETGID] and
    both: no other bit is ever set.  They are not 0 only when there are
    flags to clear and an id differs, and both bits are set exactly when
    there are flags to clear and both ids differ. *)
Theorem X3_flags_table (bprm : linux_binprm.t) (task : task_struct.t) :
  let flags := classify bprm task in
  (flags = 0 \/ flags = EXEC_SETUID \/ flags = EXEC_SETGID
   \/ flags = Z.lor EXEC_SETUID EXEC_SETGID)
  /\ Z.land flags (Z.lnot (Z.lor EXEC_SETUID EXEC_SETGID)) = 0
  /\ (flags <> 0 <->
      linux_binprm.per_clear bprm <> 0
      /\ (pending_euid bprm <> real_uid task \/ pending_egid bprm <> real_gid task))
  /\ (flags = Z.lor EXEC_SETUID EXEC_SETGID <->
      linux_binprm.per_clear bprm <> 0
      /\ pending_euid bprm <> real_uid task /\ pending_egid bprm <> real_gid task).
Proof.
  intros flags. subst flags.
  destruct (decide (linux_binprm.per_clear bprm = 0)) as [Hsec|Hsec].
  - rewrite (classify_gate_closed bprm task Hsec).
    split_and!; [by left|reflexivity| |]; split; try done; intros [H _]; done.
  - rewrite (classify_gate_open bprm task Hsec).
    destruct (Z.eqb_spec (pending_euid bprm) (real_uid task)) as [He|He],
             (Z.eqb_spec (pending_egid bprm) (real_gid task)) as [Hg|Hg]; cbn;
      (split_and!; [tauto|reflexivity| |]); split; try done;
      try (intros _; split; [assumption|tauto]);
      try (intros [_ [H|H]]; contradiction);
      try (intros (_ & H1 & H2); contradiction);
      try (intros _; split_and!; assumption).
Qed.

(** X4: when the file pointer or its inode pointer reads as null, the
    record has inode number 0, link count 0 and cleared mount fields, and
    it is stored exactly when some flag was computed: the test on an
    unlinked file cannot pass. *)
Theorem X4_no_inode (bprm : linux_binprm.t) (st : kstate) (heap : struct_execve_heap) :
  execve_heap st = Some heap ->
  exec_inode bprm = None ->
  let st' := tg_kp_bprm_committing_creds bprm st in
  exists r,
    heap_info st' = Some r
    /\ i_ino (inode (file r)) = 0
    /\ i_nlink (inode (file r)) = 0
    /\ mount (file r) = mount (file zero_msg_execve_info)
    /\ (committed st st' r <-> classify bprm (current st) <> 0)
    /\ (isset r = 1 <-> classify bprm (current st) <> 0).
Proof.
  intros Hheap Hino st'.
  destruct (run_record bprm st heap Hheap) as (r & Hi & _ & Hnl & Hin & Hw & Hn).
  destruct (run_mount bprm st heap Hheap) as (r' & Hi' & Hm).
  fold st' in Hi, Hi', Hw, Hn. rewrite Hi in Hi'. injection Hi' as <-.
  unfold exec_nlink, exec_ino, exec_sb in *. rewrite Hino in *. cbn in Hnl, Hin, Hm.
  exists r. split_and!; try assumption.
  - split.
    + intros Hc. destruct (decide (classify bprm (current st) = 0)) as [H0|H0]; [|done].
      assert (Hnw : not_written st st').
      { apply Hn. intros [H|[_ H]]; done. }
      destruct (committed_not_written _ _ _ Hc Hnw).
    + intros H. apply Hw. by left.
  - split.
    + intros Hs. destruct (decide (classify bprm (current st) = 0)) as [H0|H0]; [|done].
      assert (Hz : isset r = 0).
      { apply Hn. intros [H|[_ H]]; done. }
      rewrite Hz in Hs. discriminate Hs.
    + intros H. apply Hw. by left.
Qed.

Lemma X4_witness :
  let bprm := linux_binprm.mk 1 (Some (cred.mk 1000 1000 0 1000)) None in
  let st := state_of (Some stale_heap) 23 in
  execve_heap st = Some stale_heap
  /\ exec_inode bprm = None
  /\ exists r,
       heap_info (tg_kp_bprm_committing_creds bprm st) = Some r
       /\ i_ino (inode (file r)) = 0
       /\ i_nlink (inode (file r)) = 0.
Proof.
  intros bprm st. split_and!; try reflexivity.
  destruct (X4_no_inode bprm st stale_heap eq_refl eq_refl) as (r & Hi & H1 & H2 & _).
  exists r. split_and!; assumption.
Defined.

(** X5: running the program a second time on the same exec changes neither
    the record in the scratch buffer nor the joined-info map. *)
Theorem X5_second_run_same_exec (bprm : linux_binprm.t) (st : kstate) :
  let st1 := tg_kp_bprm_committing_creds bprm st in
  let st2 := tg_kp_bprm_committing_creds bprm st1 in
  heap_info st2 = heap_info st1
  /\ execve_joined_info_map st2 = execve_joined_info_map st1.
Proof.
  intros st1 st2.
  destruct (execve_heap st) as [heap|] eqn:Hheap.
  - destruct (run_state bprm st) as (Hc & Ht & _ & Hm1 & Hi1).
    destruct (run_state bprm st1) as (_ & _ & _ & Hm2 & Hi2).
    destruct (run_keeps_heap bprm st heap Hheap) as [h1 Hh1].
    fold st1 in Hc, Ht, Hm1, Hi1, Hh1, Hm2, Hi2. fold st2 in Hm2, Hi2.
    rewrite Hh1, Hc, Ht in Hm2. rewrite Hh1, Hc in Hi2. rewrite Hheap in Hm1, Hi1.
    split; [by rewrite Hi1, Hi2|].
    rewrite Hm2. destruct (cache_entry _); [|reflexivity].
    rewrite Hm1. apply insert_insert_eq.
  - subst st2 st1. by rewrite !(run_without_heap bprm st Hheap).
Qed.

(** X6: the runs of two threads with different thread ids commute on the
    joined-info map: whichever exec is seen first, the map is the same. *)
Theorem X6_threads_commute
    (b1 b2 : linux_binprm.t) (t1 t2 : task_struct.t) (tid1 tid2 : Z) (st : kstate) :
  tid1 <> tid2 ->
  execve_joined_info_map
    (tg_kp_bprm_committing_creds b2
       (switch_to t2 tid2 (tg_kp_bprm_committing_creds b1 (switch_to t1 tid1 st))))
  = execve_joined_info_map
      (tg_kp_bprm_committing_creds b1
         (switch_to t1 tid1 (tg_kp_bprm_committing_creds b2 (switch_to t2 tid2 st)))).
Proof.
  intros Hne.
  destruct (execve_heap st) as [heap|] eqn:Hheap.
  - destruct (run_keeps_heap b1 (switch_to t1 tid1 st) heap Hheap) as [h1 Hh1].
    destruct (run_keeps_heap b2 (switch_to t2 tid2 st) heap Hheap) as [h2 Hh2].
    destruct (run_state b1 (switch_to t1 tid1 st)) as (_ & _ & _ & Hm1 & _).
    destruct (run_state b2 (switch_to t2 tid2 st)) as (_ & _ & _ & Hm2 & _).
    destruct (run_state b2
                (switch_to t2 tid2 (tg_kp_bprm_committing_creds b1 (switch_to t1 tid1 st))))
      as (_ & _ & _ & Hm12 & _).
    destruct (run_state b1
                (switch_to t1 tid1 (tg_kp_bprm_committing_creds b2 (switch_to t2 tid2 st))))
      as (_ & _ & _ & Hm21 & _).
    cbn [switch_to execve_heap execve_joined_info_map current current_pid_tgid] in *.
    rewrite Hheap in Hm1, Hm2. rewrite Hh1 in Hm12. rewrite Hh2 in Hm21.
    rewrite Hm12, Hm21, Hm1, Hm2.
    destruct (cache_entry (fill_info b1 t1 zero_msg_execve_info)),
             (cache_entry (fill_info b2 t2 zero_msg_execve_info)); try reflexivity.
    by apply insert_insert_ne.
  - rewrite (run_without_heap b1 (switch_to t1 tid1 st) Hheap).
    rewrite (run_without_heap b2 (switch_to t2 tid2 st) Hheap).
    rewrite (run_without_heap b2 (switch_to t2 tid2 (switch_to t1 tid1 st)) Hheap).
    rewrite (run_without_heap b1 (switch_to t1 tid1 (switch_to t2 tid2 st)) Hheap).
    reflexivity.
Qed.

Lemma X6_witness :
  (31 : Z) <> 32
  /\ execve_joined_info_map
       (tg_kp_bprm_committing_creds bprm_C
          (switch_to (current (state_of None 0)) 32
             (tg_kp_bprm_committing_creds bprm_B
                (switch_to (current (state_of None 0)) 31
                   (state_of (Some stale_heap) 0)))))
     = execve_joined_info_map
         (tg_kp_bprm_committing_creds bprm_B
            (switch_to (current (state_of None 0)) 31
               (tg_kp_bprm_committing_creds bprm_C
                  (switch_to (current (state_of None 0)) 32
                     (state_of (Some stale_heap) 0))))).
Proof.
  split; [done|].
  apply (X6_threads_commute bprm_B bprm_C (current (state_of None 0))
           (current (state_of None 0)) 31 32 (state_of (Some stale_heap) 0)).
  done.
Defined.

(** X7: a run never removes an entry of the joined-info map and adds at
    most the entry of the current thread id: the map grows by at most one
    entry, and by none when the thread id already has one. *)
Theorem X7_map_growth (bprm : linux_binprm.t) (st : kstate) :
  let st' := tg_kp_bprm_committing_creds bprm st in
  let m := execve_joined_info_map st in
  let m' := execve_joined_info_map st' in
  dom m ⊆ dom m'
  /\ dom m' ⊆ dom m ∪ {[current_pid_tgid st]}
  /\ (size m <= size m')%nat
  /\ (size m' <= S (size m))%nat
  /\ (is_Some (m !! current_pid_tgid st) -> size m' = size m).
Proof.
  intros st' m m'. destruct (run_state bprm st) as (_ & _ & _ & Hm & _).
  fold st' m m' in Hm. rewrite Hm. clear Hm.
  destruct (execve_heap st); [|split_and!; [set_solver|set_solver|lia|lia|done]].
  destruct (cache_entry _); [|split_and!; [set_solver|set_solver|lia|lia|done]].
  rewrite dom_insert_L, map_size_insert.
  split_and!; [apply union_subseteq_r|by rewrite (comm_L (∪))| | |].
  - destruct (m !! current_pid_tgid st); simpl; lia.
  - destruct (m !! current_pid_tgid st); simpl; lia.
  - intros [x ->]. reflexivity.
Qed.

(** A NUL-terminated string can be read to its end. *)
Lemma fetch_str_terminated (count : nat) (src : list Z) :
  In 0 src -> is_Some (fetch_str count src).
Proof.
  revert count. induction src as [|b rest IH]; intros count Hin; [destruct Hin|].
  destruct count as [|c]; [by eexists|]. rewrite fetch_str_S.
  destruct (Z.eqb_spec b 0) as [->|Hb]; [by eexists|].
  destruct Hin as [H|H]; [congruence|].
  destruct (IH c H) as [bs ->]. by eexists.
Qed.

(** Reading back, as a C string, characters followed by a NUL. *)
Lemma cstring_app_zeros (p : list Z) (n : nat) :
  Forall (fun c => c <> 0) p -> cstring (p ++ replicate (S n) 0) = p.
Proof.
  induction 1 as [|c p Hc Hp IH]; [reflexivity|].
  simpl. destruct (Z.eqb_spec c 0); [contradiction|]. by rewrite <- IH at 2.
Qed.

(** X8: for a NUL-terminated type name, the [type] field of the record read
    back as a C string is the first 6 characters of the name; a name of at
    most 6 characters is read back whole. *)
Theorem X8_type_name_read_back
    (bprm : linux_binprm.t) (st : kstate) (heap : struct_execve_heap) (str : list Z) :
  execve_heap st = Some heap ->
  sb_type_name (exec_sb bprm) = Some str ->
  In 0 str ->
  exists r,
    heap_info (tg_kp_bprm_committing_creds bprm st) = Some r
    /\ cstring (type (mount (file r))) = take 6 (cstring str)
    /\ ((length (cstring str) <= 6)%nat -> cstring (type (mount (file r))) = cstring str).
Proof.
  intros Hheap Hname Hnul. destruct (run_mount bprm st heap Hheap) as (r & Hi & Hm).
  exists r. split; [assumption|]. rewrite Hm, read_mount_mount.
  destruct (exec_sb bprm) as [s|]; [|discriminate Hname].
  cbn [type]. rewrite Hname.
  change (type (mount (file zero_msg_execve_info))) with (replicate 7 0).
  destruct (probe_read_str_cleared 6 str) as (k & Hk6 & Hkl & -> & Hmin).
  rewrite (Hmin (fetch_str_terminated 7 str Hnul)).
  assert (Hrb : cstring (take (6 `min` length (cstring str)) (cstring str)
                         ++ replicate (7 - 6 `min` length (cstring str)) 0)
                = take 6 (cstring str)).
  { replace (7 - 6 `min` length (cstring str))%nat
      with (S (6 - 6 `min` length (cstring str))) by lia.
    rewrite cstring_app_zeros by apply Forall_take, cstring_nonzero.
    destruct (Nat.le_ge_cases 6 (length (cstring str))) as [H|H].
    - by rewrite Nat.min_l.
    - rewrite Nat.min_r by done. by rewrite !take_ge. }
  split; [exact Hrb|]. intros Hle. rewrite Hrb. by apply take_ge.
Qed.

Lemma X8_witness :
  let st := state_of (Some stale_heap) 25 in
  execve_heap st = Some stale_heap
  /\ sb_type_name (exec_sb bprm_B) = Some name_overlayfs
  /\ In 0 name_overlayfs
  /\ exists r,
       heap_info (tg_kp_bprm_committing_creds bprm_B st) = Some r
       /\ cstring (type (mount (file r))) = [111; 118; 101; 114; 108; 97].
Proof.
  intros st.
  assert (Hnul : In 0 name_overlayfs) by (unfold name_overlayfs; simpl; tauto).
  split_and!; [reflexivity|reflexivity|exact Hnul|].
  destruct (X8_type_name_read_back bprm_B st stale_heap name_overlayfs
              eq_refl eq_refl Hnul) as (r & Hi & Hc & _).
  exists r. split; assumption.
Defined.

(** The mount block changes the mount fields of the record and nothing
    else. *)
Lemma read_mount_set_mount (sb : option super_block.t) (i : msg_execve_info) :
  read_mount sb i = set_mount (mount (file (read_mount sb i))) i.
Proof.
  destruct i as [s [ino mnt] b]. unfold read_mount.
  destruct sb as [sb|]; [|reflexivity].
  destruct (BPF_CORE_READ None _ _); reflexivity.
Qed.

(** X9: whatever the super block is, the record of a run is the record of
    the run without the mount block but for its mount fields, and the two
    runs take the same decision: both store their record under the thread
    id or neither writes the map. *)
Theorem X9_mount_block_frame
    (bprm : linux_binprm.t) (st : kstate) (heap : struct_execve_heap) :
  execve_heap st = Some heap ->
  let st' := tg_kp_bprm_committing_creds bprm st in
  let st'' := tg_kp_without_mount bprm st in
  exists r r',
    heap_info st' = Some r
    /\ heap_info st'' = Some r'
    /\ r = set_mount (mount (file r)) r'
    /\ secureexec r = secureexec r'
    /\ inode (file r) = inode (file r')
    /\ isset r = isset r'
    /\ ((committed st st' r /\ committed st st'' r')
        \/ (not_written st st' /\ not_written st st'')).
Proof.
  intros Hheap st' st''. subst st' st''.
  unfold tg_kp_bprm_committing_creds, tg_kp_without_mount. rewrite Hheap. cbv zeta.
  change (info (memset_info heap)) with zero_msg_execve_info.
  set (i' := fill_info_without_mount bprm (current st) zero_msg_execve_info).
  assert (Hfill : fill_info bprm (current st) zero_msg_execve_info
                  = read_mount (exec_sb bprm) i') by reflexivity.
  rewrite Hfill. set (i := read_mount (exec_sb bprm) i').
  assert (Hi : i = set_mount (mount (file i)) i') by apply read_mount_set_mount.
  assert (Hc : cache_entry i = cache_entry i') by (rewrite Hi; reflexivity).
  unfold commit_entry. rewrite Hc. destruct (cache_entry i').
  - exists (set_isset 1 i), (set_isset 1 i').
    split_and!; try reflexivity; try (rewrite Hi; reflexivity).
    left. split; split; reflexivity.
  - exists i, i'.
    split_and!; try reflexivity; try (rewrite Hi; reflexivity); try exact Hi.
    right. split; split; reflexivity.
Qed.

Lemma X9_witness :
  let st := state_of (Some stale_heap) 27 in
  execve_heap st = Some stale_heap
  /\ exists r r',
       heap_info (tg_kp_bprm_committing_creds bprm_C st) = Some r
       /\ heap_info (tg_kp_without_mount bprm_C st) = Some r'
       /\ r = set_mount (mount (file r)) r'.
Proof.
  intros st. split; [reflexivity|].
  destruct (X9_mount_block_frame bprm_C st stale_heap eq_refl)
    as (r & r' & H1 & H2 & H3 & _).
  exists r, r'. split_and!; assumption.
Defined.

(** X10: with flags to clear and a pending credential pointer that reads as
    null, the pending effective ids read as 0, so that [EXEC_SETUID] is set
    exactly when the real uid is not 0 and [EXEC_SETGID] exactly when the
    real gid is not 0; when the credential pointer of the current task
    reads as null too, no flag is set. *)
Theorem X10_null_credentials (bprm : linux_binprm.t) (task : task_struct.t) :
  linux_binprm.per_clear bprm <> 0 ->
  linux_binprm.cred bprm = None ->
  (has_flag EXEC_SETUID (classify bprm task) <-> real_uid task <> 0)
  /\ (has_flag EXEC_SETGID (classify bprm task) <-> real_gid task <> 0)
  /\ (task_struct.cred task = None -> classify bprm task = 0).
Proof.
  intros Hsec Hcred. rewrite (classify_gate_open bprm task Hsec).
  unfold pending_euid, pending_egid, has_flag. rewrite Hcred. cbn [BPF_CORE_READ].
  split_and!.
  - destruct (Z.eqb_spec 0 (real_uid task)) as [He|He],
             (Z.eqb_spec 0 (real_gid task)) as [Hg|Hg];
      cbn; split; intros H; (done || congruence).
  - destruct (Z.eqb_spec 0 (real_uid task)) as [He|He],
             (Z.eqb_spec 0 (real_gid task)) as [Hg|Hg];
      cbn; split; intros H; (done || congruence).
  - intros Ht. unfold real_uid, real_gid. rewrite Ht. reflexivity.
Qed.

Lemma X10_witness :
  let bprm := linux_binprm.mk 1 None None in
  let task := current (state_of None 0) in
  linux_binprm.per_clear bprm <> 0
  /\ linux_binprm.cred bprm = None
  /\ (has_flag EXEC_SETUID (classify bprm task) <-> real_uid task <> 0).
Proof.
  intros bprm task. split_and!; [done|reflexivity|].
  apply (X10_null_credentials bprm task); done.
Defined.
